(** * Monte Carlo objectives of probtorch ([probtorch/objectives/montecarlo.py])

    A shallow embedding of the four functions [elbo], [log_like], [kl] and
    [ml].  The module is a client of two collaborators it does not define:
    the tensor library (torch) and the [Trace] class.  Both are interfaces
    here ([TensorOps], [TraceOps]); every theorem of the objectives holds for
    all their implementations.  A small concrete implementation over the real
    numbers ([RealModel]) runs the functions on concrete traces.

    Python is dynamically typed and the source relies on it: a log-density
    is either a plain Python number or a tensor, [log_weights] may also be
    [None], and the source branches on [isinstance(_, Number)] and
    [_ is None].  Calling [.mean()], [.sum(0)] or [softmax] on something that
    is not a tensor raises; that is modelled by the [outcome] monad. *)

From Stdlib Require Import ZArith List String Bool Reals Lra.
From Stdlib Require PrimFloat.
Import ListNotations.
Local Open Scope string_scope.

Set Implicit Arguments.

(** ** Python values and exceptions *)

(** What a log-density can be at run time: a Python number
    ([isinstance(v, Number)] holds) or a tensor. *)
Inductive value (S T : Type) : Type :=
| Num (x : S)
| Ten (t : T).
Arguments Num {S T} x.
Arguments Ten {S T} t.

(** The classes of the objects on which the source looks up a method. *)
Inductive pyclass : Type := NoneType | Float | Tensor.

(** [AttributeError cls attr]: "'cls' object has no attribute 'attr'". *)
Inductive exn : Type :=
| AttributeError (cls : pyclass) (attr : string).

Inductive outcome (A : Type) : Type :=
| Return (a : A)
| Raise (e : exn).
Arguments Return {A} a.
Arguments Raise {A} e.

Definition bind {A B : Type} (m : outcome A) (k : A -> outcome B) : outcome B :=
  match m with
  | Return a => k a
  | Raise e => Raise e
  end.

Definition omap {A B : Type} (f : A -> B) (m : outcome A) : outcome B :=
  bind m (fun a => Return (f a)).

(** Binary operator on two computations, the left operand evaluated first. *)
Definition olift2 {A B C : Type} (f : A -> B -> C)
    (m1 : outcome A) (m2 : outcome B) : outcome C :=
  bind m1 (fun a => bind m2 (fun b => Return (f a b))).

Declare Scope py_scope.
Delimit Scope py_scope with py.
Notation "x <- m ;; k" := (bind m (fun x => k))
  (at level 61, m at next level, right associativity) : py_scope.
Local Open Scope py_scope.

Definition pyclass_eqb (a b : pyclass) : bool :=
  match a, b with
  | NoneType, NoneType | Float, Float | Tensor, Tensor => true
  | _, _ => false
  end.

Definition exn_eqb (e1 e2 : exn) : bool :=
  match e1, e2 with
  | AttributeError c1 a1, AttributeError c2 a2 =>
      pyclass_eqb c1 c2 && String.eqb a1 a2
  end.

(** [raises e m]: the computation [m] ends by raising exactly [e]. *)
Definition raises {A : Type} (e : exn) (m : outcome A) : bool :=
  match m with
  | Return _ => false
  | Raise e' => exn_eqb e e'
  end.

(** ** The tensor library *)

(** The operations of torch the module uses, on scalars [S] (Python floats)
    and tensors [T].  Arithmetic between tensors broadcasts; a Python number
    met by a tensor is broadcast like the 0-dimensional tensor [of_number]
    makes of it.  The operations are functions: an error torch raises of its
    own (shapes that do not broadcast, a mean of integers) has no
    counterpart here, nor has an error of the trace in [log_joint]; what is
    said below of failures is said of calls in which these return. *)
Class TensorOps (S T : Type) : Type := {
  sadd : S -> S -> S;
  ssub : S -> S -> S;
  smul : S -> S -> S;
  sneg : S -> S;
  of_number : S -> T;
  tadd : T -> T -> T;
  tsub : T -> T -> T;
  tmul : T -> T -> T;
  tneg : T -> T;
  tmean : T -> T;                (* t.mean() *)
  tsum : T -> Z -> T;            (* t.sum(dim) *)
  tsoftmax : T -> Z -> T         (* torch.nn.functional.softmax(t, dim) *)
}.

(** The same library with another function in the place of softmax. *)
Definition with_softmax {S T : Type} (O : TensorOps S T) (f : T -> Z -> T)
    : TensorOps S T :=
  {| sadd := sadd; ssub := ssub; smul := smul; sneg := sneg;
     of_number := of_number;
     tadd := tadd; tsub := tsub; tmul := tmul; tneg := tneg;
     tmean := tmean; tsum := tsum; tsoftmax := f |}.

(** ** The trace interface *)

(** What the module asks of a trace: the names of its conditioned and of its
    sampled nodes in iteration order, membership of a name ([n in q]), and
    [q.log_joint(sample_dim, batch_dim, names)].  The names are a sequence
    that can be iterated more than once ([kl] hands [y] to [log_joint]
    twice).  [log_joint] answers a number or a tensor; the source tests for
    both. *)
Class TraceOps (S T Tr : Type) : Type := {
  conditioned : Tr -> list string;
  sampled : Tr -> list string;
  contains : Tr -> string -> bool;
  log_joint : Tr -> option Z -> option Z -> list string -> value S T
}.

Section Objectives.

Context {S T Tr : Type}.
Context {O : TensorOps S T}.
Context {TO : TraceOps S T Tr}.

(** *** Python arithmetic on numbers and tensors *)

Definition to_tensor (v : value S T) : T :=
  match v with
  | Num x => of_number x
  | Ten t => t
  end.

Definition py_binop (fs : S -> S -> S) (ft : T -> T -> T) (a b : value S T) : value S T :=
  match a, b with
  | Num x, Num y => Num (fs x y)
  | _, _ => Ten (ft (to_tensor a) (to_tensor b))
  end.

Definition py_add : value S T -> value S T -> value S T := py_binop sadd tadd.
Definition py_sub : value S T -> value S T -> value S T := py_binop ssub tsub.
Definition py_mul : value S T -> value S T -> value S T := py_binop smul tmul.

(** Unary minus. *)
Definition py_neg (v : value S T) : value S T :=
  match v with
  | Num x => Num (sneg x)
  | Ten t => Ten (tneg t)
  end.

(** [isinstance(v, Number)], for [v] possibly [None]. *)
Definition is_number (v : option (value S T)) : bool :=
  match v with
  | Some (Num _) => true
  | _ => false
  end.

(** [v.mean()]: a Python float has no such method. *)
Definition py_mean (v : value S T) : outcome (value S T) :=
  match v with
  | Num _ => Raise (AttributeError Float "mean")
  | Ten t => Return (Ten (tmean t))
  end.

(** [v.sum(dim)]. *)
Definition py_sum (v : value S T) (dim : Z) : outcome (value S T) :=
  match v with
  | Num _ => Raise (AttributeError Float "sum")
  | Ten t => Return (Ten (tsum t dim))
  end.

(** [softmax(v, dim)], which is [v.softmax(dim)] in torch. *)
Definition softmax (v : option (value S T)) (dim : Z) : outcome (value S T) :=
  match v with
  | None => Raise (AttributeError NoneType "softmax")
  | Some (Num _) => Raise (AttributeError Float "softmax")
  | Some (Ten t) => Return (Ten (tsoftmax t dim))
  end.

(** *** [log_like] (lines 52-96) *)

(** [[n for n in p.conditioned() if n not in q]] *)
Definition x_names (q p : Tr) : list string :=
  filter (fun n => negb (contains q n)) (conditioned p).

Definition log_like (q p : Tr) (sample_dim batch_dim : option Z)
    (log_weights : option (value S T)) : outcome (value S T) :=
  let x := x_names q p in
  let log_px := log_joint p sample_dim batch_dim x in
  match sample_dim with
  | None => py_mean log_px
  | Some _ =>
      let log_weights :=
        match log_weights with
        | None => Some (log_joint q sample_dim batch_dim (conditioned q))
        | Some _ => log_weights
        end in
      if is_number log_weights then py_mean log_px
      else
        weights <- softmax log_weights 0 ;;
        s <- py_sum (py_mul weights log_px) 0 ;;
        py_mean s
  end.

(** *** [kl] (lines 99-158) *)

(** [[n for n in q.sampled() if n in p]] *)
Definition z_names (q p : Tr) : list string :=
  filter (fun n => contains p n) (sampled q).

(** Lines 141-150: the integrand [log_qp]. *)
Definition kl_log_qp (q p : Tr) (sample_dim batch_dim : option Z)
    (log_weights : option (value S T)) : value S T :=
  let y := conditioned q in
  let z := z_names q p in
  let log_qy :=
    match log_weights with
    | None => log_joint q sample_dim batch_dim y
    | Some w => w
    end in
  let log_py := log_joint p sample_dim batch_dim y in
  let log_pz := log_joint p sample_dim batch_dim z in
  let log_qz := log_joint q sample_dim batch_dim z in
  py_sub (py_sub (py_add log_qy log_qz) log_py) log_pz.

(** Lines 151-158.  [log_weights] is still the argument here: unlike
    [log_like], [kl] binds what it derives from [q] to [log_qy] only. *)
Definition kl (q p : Tr) (sample_dim batch_dim : option Z)
    (log_weights : option (value S T)) : outcome (value S T) :=
  let log_qp := kl_log_qp q p sample_dim batch_dim log_weights in
  match sample_dim with
  | None => py_mean log_qp
  | Some _ =>
      if is_number log_weights then py_mean log_qp
      else
        weights <- softmax log_weights 0 ;;
        s <- py_sum (py_mul weights log_qp) 0 ;;
        py_mean s
  end.

(** *** [ml] (lines 161-199) *)

Definition ml (q : Tr) (sample_dim batch_dim : option Z)
    (log_weights : option (value S T)) : outcome (value S T) :=
  let log_qy :=
    match log_weights with
    | None => log_joint q sample_dim batch_dim (conditioned q)
    | Some w => w
    end in
  if is_number (Some log_qy) then Return log_qy
  else py_mean log_qy.

(** *** [elbo] (lines 5-49) *)

(** The body of [elbo] over the three functions it calls.  Python evaluates
    the operands from left to right: [log_like(...)], [beta * kl(...)], the
    difference, [(beta + alpha) * ml(...)], the sum. *)
Definition elbo_body
    (log_like' kl' : Tr -> Tr -> option Z -> option Z -> option (value S T) -> outcome (value S T))
    (ml' : Tr -> option Z -> option Z -> option (value S T) -> outcome (value S T))
    (q p : Tr) (sample_dim batch_dim : option Z) (alpha beta : S)
    : outcome (value S T) :=
  let log_weights := log_joint q sample_dim batch_dim (conditioned q) in
  a <- log_like' q p sample_dim batch_dim (Some log_weights) ;;
  b <- kl' q p sample_dim batch_dim (Some log_weights) ;;
  let d := py_sub a (py_mul (Num beta) b) in
  c <- ml' q sample_dim batch_dim (Some log_weights) ;;
  Return (py_add d (py_mul (Num (sadd beta alpha)) c)).

Definition elbo : Tr -> Tr -> option Z -> option Z -> S -> S -> outcome (value S T) :=
  elbo_body log_like kl ml.

End Objectives.

(** ** Vocabulary of the statements *)

Section Vocabulary.

Context {S T Tr : Type}.
Context {O : TensorOps S T}.
Context {TO : TraceOps S T Tr}.

(** The log-weights in effect in a call: the ones the caller supplied, or
    else [q]'s joint log-density over its conditioned names.  This is what
    [kl] and [ml] bind to [log_qy] and what [log_like] rebinds
    [log_weights] to. *)
Definition weights_in_effect (q : Tr) (sample_dim batch_dim : option Z)
    (log_weights : option (value S T)) : value S T :=
  match log_weights with
  | None => log_joint q sample_dim batch_dim (conditioned q)
  | Some w => w
  end.

(** What [ml] makes of [log_qy]: a plain number is returned unchanged, of a
    tensor the mean is returned. *)
Definition scalar_or_mean (v : value S T) : outcome (value S T) :=
  match v with
  | Num x => Return (Num x)
  | Ten t => Return (Ten (tmean t))
  end.

(** The weighted reduction spelled out on tensors: the mean of the sum along
    dimension 0 of the softmax of [w] along dimension 0, times [term]. *)
Definition weighted_mean (w : T) (term : value S T) : T :=
  tmean (tsum (tmul (tsoftmax w 0) (to_tensor term)) 0).

(** A two-trace objective whose answer to [log_weights=None] is replaced by
    [r]; on every other call it is [f]. *)
Definition patch_none (r : outcome (value S T))
    (f : Tr -> Tr -> option Z -> option Z -> option (value S T)
         -> outcome (value S T))
    : Tr -> Tr -> option Z -> option Z -> option (value S T)
      -> outcome (value S T) :=
  fun q p sample_dim batch_dim log_weights =>
    match log_weights with
    | None => r
    | Some _ => f q p sample_dim batch_dim log_weights
    end.

(** The same for the one-trace objective [ml]. *)
Definition patch_none1 (r : outcome (value S T))
    (f : Tr -> option Z -> option Z -> option (value S T)
         -> outcome (value S T))
    : Tr -> option Z -> option Z -> option (value S T)
      -> outcome (value S T) :=
  fun q sample_dim batch_dim log_weights =>
    match log_weights with
    | None => r
    | Some _ => f q sample_dim batch_dim log_weights
    end.

End Vocabulary.

(** The laws of exact arithmetic that the sign of [kl] depends on.  They hold
    of tensors of real numbers under broadcasting; rounding breaks them. *)
Class TensorLaws {S T : Type} (O : TensorOps S T) : Prop := {
  tadd_comm : forall a b : T, tadd a b = tadd b a;
  tadd_assoc : forall a b c : T, tadd a (tadd b c) = tadd (tadd a b) c;
  tsub_def : forall a b : T, tsub a b = tadd a (tneg b);
  tneg_add : forall a b : T, tneg (tadd a b) = tadd (tneg a) (tneg b);
  tneg_neg : forall a : T, tneg (tneg a) = a;
  tmean_neg : forall a : T, tmean (tneg a) = tneg (tmean a);
  of_number_add : forall x y : S,
    of_number (sadd x y) = tadd (of_number x) (of_number y);
  of_number_sub : forall x y : S,
    of_number (ssub x y) = tsub (of_number x) (of_number y)
}.

(** ** A concrete tensor library over the real numbers *)

Module RealModel.

Local Open Scope R_scope.

(** Tensors of two shapes: 0-dimensional, and 1-dimensional with two entries
    along dimension 0 (two samples).  Any two of them broadcast. *)
Inductive rtensor : Type :=
| T0 (r : R)
| T1 (r0 r1 : R).

Definition broadcast (f : R -> R -> R) (a b : rtensor) : rtensor :=
  match a, b with
  | T0 x, T0 y => T0 (f x y)
  | T0 x, T1 y0 y1 => T1 (f x y0) (f x y1)
  | T1 x0 x1, T0 y => T1 (f x0 y) (f x1 y)
  | T1 x0 x1, T1 y0 y1 => T1 (f x0 y0) (f x1 y1)
  end.

Definition rneg (a : rtensor) : rtensor :=
  match a with
  | T0 x => T0 (- x)
  | T1 x0 x1 => T1 (- x0) (- x1)
  end.

Definition rmean (a : rtensor) : rtensor :=
  match a with
  | T0 x => T0 x
  | T1 x0 x1 => T0 ((x0 + x1) / 2)
  end.

(** Dimension 0 is the only dimension there is, and the one the source
    passes; torch accepts it on a 0-dimensional tensor too. *)
Definition rsum (a : rtensor) (dim : Z) : rtensor :=
  match a with
  | T0 x => T0 x
  | T1 x0 x1 => T0 (x0 + x1)
  end.

Definition rsoftmax (a : rtensor) (dim : Z) : rtensor :=
  match a with
  | T0 x => T0 (exp x / exp x)
  | T1 x0 x1 => T1 (exp x0 / (exp x0 + exp x1)) (exp x1 / (exp x0 + exp x1))
  end.

#[export] Instance real_ops : TensorOps R rtensor := {|
  sadd := Rplus; ssub := Rminus; smul := Rmult; sneg := Ropp;
  of_number := T0;
  tadd := broadcast Rplus; tsub := broadcast Rminus; tmul := broadcast Rmult;
  tneg := rneg; tmean := rmean; tsum := rsum; tsoftmax := rsoftmax |}.

(** Modelled from the spec: the Trace class, which the source imports
    nothing of and only calls.  A trace is "a set of named random variables,
    each either sampled or conditioned", kept here in insertion order with
    the log-probability tensor of each node. *)
Inductive node_kind : Type := Sampled | Conditioned.

Record node : Type := {
  node_name : string;
  node_is : node_kind;
  node_log_prob : rtensor
}.

Definition rtrace : Type := list node.

Definition is_conditioned (n : node) : bool :=
  match node_is n with Conditioned => true | Sampled => false end.

Definition is_sampled (n : node) : bool :=
  match node_is n with Sampled => true | Conditioned => false end.

Definition lookup (tr : rtrace) (name : string) : option node :=
  find (fun n => String.eqb (node_name n) name) tr.

(** The dimensions named by [sample_dim] and [batch_dim] are kept, the
    others summed out; these tensors have dimension 0 at most. *)
Definition keeps_dim0 (sample_dim batch_dim : option Z) : bool :=
  match sample_dim, batch_dim with
  | Some 0%Z, _ | _, Some 0%Z => true
  | _, _ => false
  end.

Definition batch_sum (sample_dim batch_dim : option Z) (t : rtensor) : rtensor :=
  if keeps_dim0 sample_dim batch_dim then t else rsum t 0.

(** Modelled from the spec: "a method to compute the joint log-density of a
    named subset along optional sample/batch tensor dimensions".  The sum
    starts from the Python number [0.0], which is what the joint of no node
    is (the case the source's [isinstance(_, Number)] tests are for); names
    that are not nodes of the trace add nothing. *)
Definition rlog_joint (tr : rtrace) (sample_dim batch_dim : option Z)
    (names : list string) : value R rtensor :=
  fold_left
    (fun log_prob name =>
       match lookup tr name with
       | Some n =>
           py_add log_prob (Ten (batch_sum sample_dim batch_dim (node_log_prob n)))
       | None => log_prob
       end)
    names (Num 0).

#[export] Instance real_trace : TraceOps R rtensor rtrace := {|
  conditioned := fun tr => map node_name (filter is_conditioned tr);
  sampled := fun tr => map node_name (filter is_sampled tr);
  contains := fun tr name =>
    match lookup tr name with Some _ => true | None => false end;
  log_joint := rlog_joint |}.

(** Two samples of an encoder and a decoder over the same two variables. *)
Definition q0 : rtrace :=
  [ {| node_name := "y"; node_is := Conditioned; node_log_prob := T1 1 2 |};
    {| node_name := "z"; node_is := Sampled; node_log_prob := T1 3 4 |} ].

Definition p0 : rtrace :=
  [ {| node_name := "y"; node_is := Conditioned; node_log_prob := T1 5 7 |};
    {| node_name := "z"; node_is := Sampled; node_log_prob := T1 11 13 |} ].

(** The decoder with the observation [x] on top, which the encoder does not
    hold. *)
Definition p1 : rtrace :=
  (p0 ++ [ {| node_name := "x"; node_is := Conditioned;
             node_log_prob := T1 17 19 |} ])%list.

End RealModel.

(** ** A concrete tensor library over binary64 numbers *)

Module FloatModel.

Import PrimFloat.

(** 0-dimensional tensors of IEEE 754 binary64 numbers, the numbers of
    Python's [float] and of torch's [float64]: the mean and the sum of the
    one entry are the entry; its softmax is [exp(t - t) / exp(t - t)], that
    is [1.] for a finite entry and [nan] otherwise. *)
Definition fsoftmax (t : float) (dim : Z) : float := ((t - t) + 1)%float.

#[export] Instance float_ops : TensorOps float float := {|
  sadd := add; ssub := sub; smul := mul; sneg := opp;
  of_number := fun x => x;
  tadd := add; tsub := sub; tmul := mul;
  tneg := opp; tmean := fun t => t; tsum := fun t _ => t;
  tsoftmax := fsoftmax |}.

(** Modelled from the spec: the Trace class, as in [RealModel], with a
    binary64 log-probability at each node. *)
Record fnode : Type := {
  fnode_name : string;
  fnode_is : RealModel.node_kind;
  fnode_log_prob : float
}.

Definition ftrace : Type := list fnode.

Definition fis_conditioned (n : fnode) : bool :=
  match fnode_is n with
  | RealModel.Conditioned => true
  | RealModel.Sampled => false
  end.

Definition fis_sampled (n : fnode) : bool :=
  match fnode_is n with
  | RealModel.Sampled => true
  | RealModel.Conditioned => false
  end.

Definition flookup (tr : ftrace) (name : string) : option fnode :=
  find (fun n => String.eqb (fnode_name n) name) tr.

(** Modelled from the spec: the joint log-density of a named subset, summed
    from the Python number [0.0] over the names that are nodes of the
    trace. *)
Definition flog_joint (tr : ftrace) (sample_dim batch_dim : option Z)
    (names : list string) : value float float :=
  fold_left
    (fun log_prob name =>
       match flookup tr name with
       | Some n => py_add log_prob (Ten (fnode_log_prob n))
       | None => log_prob
       end)
    names (Num 0%float).

#[export] Instance float_trace : TraceOps float float ftrace := {|
  conditioned := fun tr => map fnode_name (filter fis_conditioned tr);
  sampled := fun tr => map fnode_name (filter fis_sampled tr);
  contains := fun tr name =>
    match flookup tr name with Some _ => true | None => false end;
  log_joint := flog_joint |}.

(** An encoder and a decoder over the same two variables, the log-density
    of [y] being [-2^53] in both. *)
Definition qf : ftrace :=
  [ {| fnode_name := "y"; fnode_is := RealModel.Conditioned;
       fnode_log_prob := (-9007199254740992)%float |};
    {| fnode_name := "z"; fnode_is := RealModel.Sampled;
       fnode_log_prob := (-1)%float |} ].

Definition pf : ftrace :=
  [ {| fnode_name := "y"; fnode_is := RealModel.Conditioned;
       fnode_log_prob := (-9007199254740992)%float |};
    {| fnode_name := "z"; fnode_is := RealModel.Sampled;
       fnode_log_prob := 0%float |} ].

End FloatModel.

(** ** Vocabulary of failure *)

(** The exception a computation ends in, if it does. *)
Definition failure {A : Type} (m : outcome A) : option exn :=
  match m with
  | Return _ => None
  | Raise e => Some e
  end.

Section FailureVocabulary.

Context {S T : Type}.
Context {O : TensorOps S T}.

(** No softmax weighting takes place: there is no sample dimension, or the
    log-weights [w] are a plain number. *)
Definition no_weighting (sample_dim : option Z) (w : value S T) : bool :=
  match sample_dim with
  | None => true
  | Some _ => is_number (Some w)
  end.

(** How [v.mean()] fails. *)
Definition mean_failure (v : value S T) : option exn :=
  if is_number (Some v) then Some (AttributeError Float "mean") else None.

End FailureVocabulary.

(** * Properties of the objectives *)

Section ObjectivesFacts.

Context {S T Tr : Type}.
Context {O : TensorOps S T}.
Context {TO : TraceOps S T Tr}.

(** ** Arithmetic and method calls *)

Lemma py_mul_tensor_l (w : T) (v : value S T) :
  py_mul (Ten w) v = Ten (tmul w (to_tensor v)).
Proof. destruct v; reflexivity. Qed.

Lemma py_mean_raise (v : value S T) (e : exn) :
  py_mean v = Raise e -> e = AttributeError Float "mean".
Proof. destruct v; simpl; intros H; inversion H; reflexivity. Qed.

Lemma py_mean_tensor (v : value S T) :
  is_number (Some v) = false -> py_mean v = Return (Ten (tmean (to_tensor v))).
Proof. destruct v; simpl; [discriminate | reflexivity]. Qed.

(** The softmax branch, once the weights are a tensor, cannot fail. *)
Lemma weighted_branch (w : T) (term : value S T) :
  (weights <- softmax (Some (Ten w)) 0 ;;
   s <- py_sum (py_mul weights term) 0 ;;
   py_mean s) = Return (Ten (weighted_mean w term)).
Proof.
  unfold softmax, bind at 1. rewrite py_mul_tensor_l. reflexivity.
Qed.

(** ** Which exceptions can leave the objectives *)

Lemma log_like_raise (q p : Tr) (sd bd : option Z) (lw : option (value S T))
    (e : exn) :
  log_like q p sd bd lw = Raise e -> e = AttributeError Float "mean".
Proof.
  unfold log_like. destruct sd as [d|]; [|apply py_mean_raise].
  destruct lw as [[x|w]|].
  - apply py_mean_raise.
  - cbv beta iota zeta delta [is_number]. rewrite weighted_branch. discriminate.
  - destruct (log_joint q (Some d) bd (conditioned q)) as [x|w].
    + apply py_mean_raise.
    + cbv beta iota zeta delta [is_number]. rewrite weighted_branch.
      discriminate.
Qed.

Lemma kl_supplied_raise (q p : Tr) (sd bd : option Z) (w : value S T)
    (e : exn) :
  kl q p sd bd (Some w) = Raise e -> e = AttributeError Float "mean".
Proof.
  unfold kl. destruct sd as [d|]; [|apply py_mean_raise].
  destruct w as [x|w].
  - apply py_mean_raise.
  - cbv beta iota zeta delta [is_number]. rewrite weighted_branch. discriminate.
Qed.

Lemma ml_returns (q : Tr) (sd bd : option Z) (lw : option (value S T)) :
  ml q sd bd lw = scalar_or_mean (weights_in_effect q sd bd lw).
Proof.
  unfold ml, weights_in_effect.
  destruct lw as [[x|w]|]; try reflexivity.
  destruct (log_joint q sd bd (conditioned q)); reflexivity.
Qed.

Lemma kl_no_weights_raise (q p : Tr) (d : Z) (bd : option Z) :
  kl q p (Some d) bd None = Raise (AttributeError NoneType "softmax").
Proof. reflexivity. Qed.

Lemma elbo_raise (q p : Tr) (sd bd : option Z) (alpha beta : S) (e : exn) :
  elbo q p sd bd alpha beta = Raise e -> e = AttributeError Float "mean".
Proof.
  unfold elbo, elbo_body.
  destruct (log_like q p sd bd _) as [a|e1] eqn:E1; simpl.
  2:{ intros H; inversion H; subst. eapply log_like_raise; eassumption. }
  destruct (kl q p sd bd _) as [b|e2] eqn:E2; simpl.
  2:{ intros H; inversion H; subst. eapply kl_supplied_raise; eassumption. }
  rewrite ml_returns.
  destruct (weights_in_effect _ _ _ _); simpl; discriminate.
Qed.

(** ** [elbo] *)

(** C1.  [elbo] is [log_like - beta * kl + (beta + alpha) * ml], the three
    terms computed with the same log-weights [w], which are [q]'s joint
    log-density over [q]'s conditioned names; an exception raised by a term
    is the exception of [elbo], the leftmost first. *)
Theorem elbo_formula (q p : Tr) (sd bd : option Z) (alpha beta : S) :
  let w := log_joint q sd bd (conditioned q) in
  elbo q p sd bd alpha beta =
  olift2 py_add
    (olift2 py_sub
       (log_like q p sd bd (Some w))
       (olift2 py_mul (Return (Num beta)) (kl q p sd bd (Some w))))
    (olift2 py_mul (Return (Num (sadd beta alpha))) (ml q sd bd (Some w))).
Proof.
  intros w. unfold elbo, elbo_body, olift2. fold w.
  destruct (log_like q p sd bd (Some w)) as [a|e1]; simpl; [|reflexivity].
  destruct (kl q p sd bd (Some w)) as [b|e2]; simpl; [|reflexivity].
  destruct (ml q sd bd (Some w)) as [c|e3]; reflexivity.
Qed.

(** C9.  [elbo] calls [log_like], [kl] and [ml] with the log-weights it
    derived, never with [None]: whatever the three functions would answer to
    [log_weights=None], [elbo] is the same; and [elbo] never ends in the
    exception of [softmax(None, 0)]. *)
Theorem elbo_never_passes_None (q p : Tr) (sd bd : option Z) (alpha beta : S) :
  (forall r1 r2 r3 : outcome (value S T),
     elbo_body (patch_none r1 log_like) (patch_none r2 kl) (patch_none1 r3 ml)
       q p sd bd alpha beta
     = elbo q p sd bd alpha beta)
  /\ raises (AttributeError NoneType "softmax") (elbo q p sd bd alpha beta)
     = false.
Proof.
  split.
  - intros r1 r2 r3. reflexivity.
  - destruct (elbo q p sd bd alpha beta) as [v|e] eqn:E; [reflexivity|].
    apply elbo_raise in E. subst e. reflexivity.
Qed.

(** ** [log_like] *)

(** C10.  Without a sample dimension [log_like] does not look at
    [log_weights]. *)
Theorem log_like_ignores_weights (q p : Tr) (bd : option Z)
    (w1 w2 : option (value S T)) :
  log_like q p None bd w1 = log_like q p None bd w2.
Proof. reflexivity. Qed.

(** C5.  With a sample dimension and log-weights that are a tensor [w]
    (supplied, or derived from [q]), [log_like] is the mean of the sum along
    dimension 0 of [softmax(w, 0) * log_px], where [log_px] is [p]'s joint
    log-density over [x], and [x] holds exactly the names conditioned in [p]
    that are not in [q]. *)
Theorem log_like_weighted (q p : Tr) (d : Z) (bd : option Z)
    (lw : option (value S T)) (w : T) :
  weights_in_effect q (Some d) bd lw = Ten w ->
  (forall n, In n (x_names q p) <->
             In n (conditioned p) /\ contains q n = false)
  /\ log_like q p (Some d) bd lw =
     Return (Ten (tmean (tsum (tmul (tsoftmax w 0)
       (to_tensor (log_joint p (Some d) bd (x_names q p)))) 0))).
Proof.
  intros Hw. split.
  - intros n. unfold x_names. rewrite filter_In, negb_true_iff. reflexivity.
  - unfold log_like. unfold weights_in_effect in Hw.
    destruct lw as [v|]; [subst v | rewrite Hw];
      cbv beta iota zeta delta [is_number]; apply weighted_branch.
Qed.

(** ** [kl] *)

(** C6.  The integrand of [kl] is [log_qy + log_qz - log_py - log_pz], the
    joint log-densities of [q] and [p] over [y], the conditioned names of
    [q], and over [z], exactly the names sampled in [q] that are in [p];
    supplied [log_weights] stand in for [log_qy]; and the integrand is all
    that [kl] reduces. *)
Theorem kl_integrand (q p : Tr) (sd bd : option Z) :
  let y := conditioned q in
  let z := z_names q p in
  (forall n, In n z <-> In n (sampled q) /\ contains p n = true)
  /\ kl_log_qp q p sd bd None =
     py_sub (py_sub (py_add (log_joint q sd bd y) (log_joint q sd bd z))
                    (log_joint p sd bd y))
            (log_joint p sd bd z)
  /\ (forall w, kl_log_qp q p sd bd (Some w) =
     py_sub (py_sub (py_add w (log_joint q sd bd z))
                    (log_joint p sd bd y))
            (log_joint p sd bd z))
  /\ (forall lw, kl q p sd bd lw =
     let log_qp := kl_log_qp q p sd bd lw in
     match sd with
     | None => py_mean log_qp
     | Some _ =>
         if is_number lw then py_mean log_qp
         else weights <- softmax lw 0 ;;
              s <- py_sum (py_mul weights log_qp) 0 ;;
              py_mean s
     end).
Proof.
  intros y z. split; [|repeat split].
  intros n. unfold z, z_names. rewrite filter_In. reflexivity.
Qed.

End ObjectivesFacts.

(** ** The reduction policy *)

Section ReductionFacts.

Context {S T Tr : Type}.
Context {O : TensorOps S T}.
Context {TO : TraceOps S T Tr}.

(** C3, amended.  Without a sample dimension each objective returns the
    plain mean of its term when that term is a tensor: [log_like] of
    [log_px], [kl] of its integrand, [ml] of [log_qy]; [ml] returns [log_qy]
    itself when it is a plain number.  In [kl] and [ml], [log_qy] is [q]'s
    joint log-density over its conditioned names when no [log_weights] are
    supplied, and the supplied [log_weights] otherwise.  None of the three
    depends on what softmax computes. *)
Theorem no_sample_dim_tensor_mean (q p : Tr) (bd : option Z)
    (lw : option (value S T)) :
  let log_qy :=
    match lw with
    | None => log_joint q None bd (conditioned q)
    | Some w => w
    end in
  let log_qp :=
    py_sub (py_sub (py_add log_qy (log_joint q None bd (z_names q p)))
                   (log_joint p None bd (conditioned q)))
           (log_joint p None bd (z_names q p)) in
  (forall t, log_joint p None bd (x_names q p) = Ten t ->
     log_like q p None bd lw = Return (Ten (tmean t)))
  /\ (forall t, log_qp = Ten t ->
     kl q p None bd lw = Return (Ten (tmean t)))
  /\ (forall t, log_qy = Ten t ->
     ml q None bd lw = Return (Ten (tmean t)))
  /\ (forall x, log_qy = Num x ->
     ml q None bd lw = Return (Num x))
  /\ forall f : T -> Z -> T,
       log_like (O := with_softmax O f) q p None bd lw = log_like q p None bd lw
       /\ kl (O := with_softmax O f) q p None bd lw = kl q p None bd lw
       /\ ml (O := with_softmax O f) q None bd lw = ml q None bd lw.
Proof.
  intros log_qy log_qp.
  assert (Hkl : kl q p None bd lw = py_mean log_qp).
  { unfold kl, kl_log_qp, log_qp, log_qy. destruct lw; reflexivity. }
  assert (Hml : ml q None bd lw = scalar_or_mean log_qy).
  { rewrite ml_returns. reflexivity. }
  split; [intros t Ht; unfold log_like; rewrite Ht; reflexivity|].
  split; [intros t Ht; rewrite Hkl, Ht; reflexivity|].
  split; [intros t Ht; rewrite Hml, Ht; reflexivity|].
  split; [intros x Hx; rewrite Hml, Hx; reflexivity|].
  intros f. repeat split.
Qed.

(** C4, amended.  When [log_weights] is a plain number, whether a sample
    dimension is given or not, [log_like] returns the plain mean of [log_px]
    when [log_px] is a tensor, [kl] returns the plain mean of its integrand
    (in which the number stands for [log_qy]) when the integrand is a tensor,
    and neither depends on what softmax computes. *)
Theorem scalar_weights_tensor_mean (q p : Tr) (sd bd : option Z) (x : S) :
  let log_qp :=
    py_sub (py_sub (py_add (Num x) (log_joint q sd bd (z_names q p)))
                   (log_joint p sd bd (conditioned q)))
           (log_joint p sd bd (z_names q p)) in
  (forall t, log_joint p sd bd (x_names q p) = Ten t ->
     log_like q p sd bd (Some (Num x)) = Return (Ten (tmean t)))
  /\ (forall t, log_qp = Ten t ->
     kl q p sd bd (Some (Num x)) = Return (Ten (tmean t)))
  /\ forall f : T -> Z -> T,
       log_like (O := with_softmax O f) q p sd bd (Some (Num x))
       = log_like q p sd bd (Some (Num x))
       /\ kl (O := with_softmax O f) q p sd bd (Some (Num x))
          = kl q p sd bd (Some (Num x)).
Proof.
  intros log_qp.
  assert (Hll : log_like q p sd bd (Some (Num x))
                = py_mean (log_joint p sd bd (x_names q p)))
    by (destruct sd; reflexivity).
  assert (Hkl : kl q p sd bd (Some (Num x)) = py_mean log_qp)
    by (destruct sd; reflexivity).
  split; [intros t Ht; rewrite Hll, Ht; reflexivity|].
  split; [intros t Ht; rewrite Hkl, Ht; reflexivity|].
  intros f. repeat split; destruct sd; reflexivity.
Qed.

(** C7.  [ml] takes [log_qy] to be [q]'s joint log-density over [q]'s
    conditioned names, or the supplied [log_weights]; a plain number is
    returned unchanged, of a tensor the mean is returned; whatever
    [sample_dim] is, the result does not depend on what softmax computes. *)
Theorem ml_scalar_or_mean (q : Tr) (sd bd : option Z) :
  ml q sd bd None = scalar_or_mean (log_joint q sd bd (conditioned q))
  /\ (forall w, ml q sd bd (Some w) = scalar_or_mean w)
  /\ (forall x, scalar_or_mean (Num x) = Return (Num x))
  /\ (forall t, scalar_or_mean (Ten t) = Return (Ten (tmean t)))
  /\ forall (lw : option (value S T)) (f : T -> Z -> T),
       ml (O := with_softmax O f) q sd bd lw = ml q sd bd lw.
Proof.
  split; [apply (ml_returns q sd bd None)|].
  split; [intros w; apply (ml_returns q sd bd (Some w))|].
  repeat split.
Qed.

End ReductionFacts.

(** ** The sign of [kl] *)

Section SignOfKl.

Context {S T Tr : Type}.
Context {O : TensorOps S T}.
Context {TO : TraceOps S T Tr}.
Context {L : TensorLaws O}.

Lemma to_tensor_add (a b : value S T) :
  to_tensor (py_add a b) = tadd (to_tensor a) (to_tensor b).
Proof. destruct a, b; simpl; auto using of_number_add. Qed.

Lemma to_tensor_sub (a b : value S T) :
  to_tensor (py_sub a b) = tsub (to_tensor a) (to_tensor b).
Proof. destruct a, b; simpl; auto using of_number_sub. Qed.

(** [c + d - a - b] is the opposite of [a + b - c - d]. *)
Lemma swapped_integrand (a b c d : T) :
  tsub (tsub (tadd c d) a) b = tneg (tsub (tsub (tadd a b) c) d).
Proof.
  rewrite !tsub_def, !tneg_add, !tneg_neg.
  rewrite <- (tadd_assoc (tadd (tneg a) (tneg b)) c d).
  rewrite (tadd_comm (tadd (tneg a) (tneg b)) (tadd c d)).
  rewrite (tadd_assoc (tadd c d) (tneg a) (tneg b)).
  reflexivity.
Qed.

Lemma is_number_integrand (a b c d : value S T) :
  is_number (Some (py_sub (py_sub (py_add c d) a) b))
  = is_number (Some (py_sub (py_sub (py_add a b) c) d)).
Proof. destruct a, b, c, d; reflexivity. Qed.

Lemma py_mean_swapped (a b c d : value S T) :
  py_mean (py_sub (py_sub (py_add c d) a) b)
  = omap py_neg (py_mean (py_sub (py_sub (py_add a b) c) d)).
Proof.
  destruct (is_number (Some (py_sub (py_sub (py_add a b) c) d))) eqn:E.
  - destruct a, b, c, d; try discriminate E. reflexivity.
  - rewrite (py_mean_tensor _ E).
    rewrite <- is_number_integrand in E. rewrite (py_mean_tensor _ E).
    unfold omap, bind, py_neg. rewrite <- tmean_neg.
    rewrite !to_tensor_sub, !to_tensor_add, swapped_integrand. reflexivity.
Qed.

(** Under the laws of exact arithmetic, and for traces with the same
    conditioned names and the same shared sampled names, [kl(p, q)] is the
    opposite of [kl(q, p)]. *)
Lemma kl_swap_exact (q p : Tr) (bd : option Z) :
  conditioned p = conditioned q ->
  z_names p q = z_names q p ->
  kl p q None bd None = omap py_neg (kl q p None bd None).
Proof.
  intros Hy Hz. unfold kl, kl_log_qp. rewrite Hy, Hz.
  apply py_mean_swapped.
Qed.

End SignOfKl.


Section SwapOfKl.

Context {S T Tr : Type}.
Context {O : TensorOps S T}.
Context {TO : TraceOps S T Tr}.

(** C8, amended.  Swapping [p] and [q] swaps them in the integrand:
    [kl(p, q)] reduces [log p(y') + log p(z') - log q(y') - log q(z')] over
    [y'], the conditioned names of [p], and [z'], the names sampled in [p]
    that are in [q]; supplied [log_weights] stay the first term.  When the
    traces have the same conditioned names and the same shared sampled
    names, and there is no sample dimension and no supplied log-weights,
    [kl(q, p)] is the mean of [a + b - c - d] and [kl(p, q)] the mean of
    [c + d - a - b], the same four terms with every sign changed; the two
    results are opposite when the tensor arithmetic obeys the laws of exact
    arithmetic. *)
Theorem kl_swap_terms (q p : Tr) (bd : option Z) :
  (forall n, In n (z_names p q) <-> In n (sampled p) /\ contains q n = true)
  /\ (forall (sd : option Z) (lw : option (value S T)),
       kl_log_qp p q sd bd lw =
       py_sub (py_sub (py_add
                         match lw with
                         | None => log_joint p sd bd (conditioned p)
                         | Some w => w
                         end
                         (log_joint p sd bd (z_names p q)))
                      (log_joint q sd bd (conditioned p)))
              (log_joint q sd bd (z_names p q)))
  /\ (conditioned p = conditioned q ->
      z_names p q = z_names q p ->
      let y := conditioned q in
      let z := z_names q p in
      let a := log_joint q None bd y in
      let b := log_joint q None bd z in
      let c := log_joint p None bd y in
      let d := log_joint p None bd z in
      kl q p None bd None = py_mean (py_sub (py_sub (py_add a b) c) d)
      /\ kl p q None bd None = py_mean (py_sub (py_sub (py_add c d) a) b)
      /\ (TensorLaws O ->
          kl p q None bd None = omap py_neg (kl q p None bd None))).
Proof.
  split.
  { intros n. unfold z_names. rewrite filter_In. reflexivity. }
  split.
  { intros sd lw. unfold kl_log_qp. destruct lw; reflexivity. }
  intros Hy Hz y z a b c d.
  split; [reflexivity|].
  split.
  - unfold kl, kl_log_qp. rewrite Hy, Hz. reflexivity.
  - intros L. apply kl_swap_exact; assumption.
Qed.

End SwapOfKl.

(** * The objectives on concrete traces *)

Module RealModelFacts.

Import RealModel.
Local Open Scope R_scope.

Ltac by_cases_lra :=
  repeat match goal with
         | |- forall _ : rtensor, _ => intros [?|? ?]
         | |- forall _ : R, _ => intro
         end;
  simpl; f_equal; lra.

(** Broadcasting arithmetic on real tensors obeys the laws of exact
    arithmetic. *)
Lemma real_ops_laws : TensorLaws real_ops.
Proof.
  split; simpl; by_cases_lra.
Qed.

(** *** Runs *)

Example x_names_q0_p1 : x_names q0 p1 = ["x"].
Proof. reflexivity. Qed.

Example z_names_q0_p1 : z_names q0 p1 = ["z"].
Proof. reflexivity. Qed.

Example log_joint_q0_samples :
  log_joint q0 (Some 0%Z) None (conditioned q0) = Ten (T1 (0 + 1) (0 + 2)).
Proof. reflexivity. Qed.

Example log_joint_q0_summed :
  log_joint q0 None None (conditioned q0) = Ten (T0 (0 + (1 + 2))).
Proof. reflexivity. Qed.

Example log_joint_of_nothing :
  log_joint p0 (Some 0%Z) None (x_names q0 p0) = Num 0.
Proof. reflexivity. Qed.

Example ml_q0 : ml q0 None None None = Return (Ten (T0 (0 + (1 + 2)))).
Proof. reflexivity. Qed.

Example ml_number : ml q0 (Some 0%Z) None (Some (Num 4)) = Return (Num 4).
Proof. reflexivity. Qed.

(** With nothing to explain ([x] empty) and no sample dimension,
    [log_px.mean()] is asked of the number [0.0]. *)
Example log_like_of_nothing :
  log_like q0 p0 None None None = Raise (AttributeError Float "mean").
Proof. reflexivity. Qed.

Example kl_q0_p0 :
  kl q0 p0 None None None =
  Return (Ten (T0 (0 + (1 + 2) + (0 + (3 + 4)) - (0 + (5 + 7)) - (0 + (11 + 13))))).
Proof. reflexivity. Qed.

Example elbo_q0_p1_returns :
  exists r : R, elbo q0 p1 (Some 0%Z) None 1 2 = Return (Ten (T0 r)).
Proof. eexists. reflexivity. Qed.

(** *** [kl] without log-weights *)

(** C2.  Called with a sample dimension and without log-weights, [kl] raises
    at [softmax(log_weights, 0)], [log_weights] being [None] still; on the
    same traces and arguments [log_like] derives the weights from [q] and
    returns the weighted mean. *)
Theorem kl_without_weights_fails :
  kl q0 p1 (Some 0%Z) None None = Raise (AttributeError NoneType "softmax")
  /\ log_like q0 p1 (Some 0%Z) None None =
     Return (Ten (weighted_mean (T1 (0 + 1) (0 + 2))
                    (log_joint p1 (Some 0%Z) None (x_names q0 p1)))).
Proof. split; reflexivity. Qed.

(** *** Swapping the traces of [kl] *)

(** C8 fails as stated: with supplied log-weights the swap does not turn
    [kl] into its opposite, although both traces hold the same names. *)
Lemma kl_swap_counterexample :
  kl p0 q0 None None (Some (Ten (T0 0)))
  <> omap py_neg (kl q0 p0 None None (Some (Ten (T0 0)))).
Proof.
  cbn. intros H. injection H as H. lra.
Qed.

(** Nor does it without weights, when a trace holds a conditioned name the
    other lacks. *)
Lemma kl_swap_unshared_name :
  kl p1 q0 None None None <> omap py_neg (kl q0 p1 None None None).
Proof.
  cbn. intros H. injection H as H. lra.
Qed.

Lemma kl_swap_terms_witness :
  conditioned p0 = conditioned q0
  /\ z_names p0 q0 = z_names q0 p0
  /\ TensorLaws real_ops
  /\ kl p0 q0 None None None = omap py_neg (kl q0 p0 None None None).
Proof.
  split; [reflexivity|]. split; [reflexivity|].
  split; [exact real_ops_laws|].
  exact (proj2 (proj2
           (proj2 (proj2 (kl_swap_terms q0 p0 None)) eq_refl eq_refl))
           real_ops_laws).
Defined.

(** *** Plain means *)

(** C3 fails as stated: without a sample dimension, on traces where [p]
    holds no conditioned name that [q] lacks, [log_px] is the number [0.0]
    and [log_like] returns no mean of it; [log_px.mean()] raises. *)
Lemma no_sample_dim_counterexample :
  log_joint p0 None None (x_names q0 p0) = Num 0
  /\ log_like q0 p0 None None None = Raise (AttributeError Float "mean")
  /\ ~ (exists v, log_like q0 p0 None None None = Return v).
Proof.
  split; [reflexivity|]. split; [reflexivity|].
  intros [v H]. discriminate H.
Qed.

(** Nor is the mean [ml] returns that of [log q(y)] when log-weights are
    supplied: it is the mean of the weights. *)
Example ml_supplied_weights :
  ml q0 None None (Some (Ten (T1 10 20))) = Return (Ten (T0 ((10 + 20) / 2)))
  /\ ml q0 None None None = Return (Ten (T0 (0 + (1 + 2)))).
Proof. split; reflexivity. Qed.

(** C4 fails as stated: with the plain number [5] for log-weights and a
    sample dimension, on the same traces, [log_px.mean()] raises. *)
Lemma scalar_weights_counterexample :
  log_joint p0 (Some 0%Z) None (x_names q0 p0) = Num 0
  /\ log_like q0 p0 (Some 0%Z) None (Some (Num 5))
     = Raise (AttributeError Float "mean")
  /\ ~ (exists v, log_like q0 p0 (Some 0%Z) None (Some (Num 5)) = Return v).
Proof.
  split; [reflexivity|]. split; [reflexivity|].
  intros [v H]. discriminate H.
Qed.

Lemma no_sample_dim_tensor_mean_witness :
  log_joint p1 None None (x_names q0 p1) = Ten (T0 (0 + (17 + 19)))
  /\ log_like q0 p1 None None None = Return (Ten (T0 (0 + (17 + 19))))
  /\ kl q0 p1 None None None =
     Return (Ten (T0 (0 + (1 + 2) + (0 + (3 + 4)) - (0 + (5 + 7))
                      - (0 + (11 + 13)))))
  /\ ml q0 None None None = Return (Ten (T0 (0 + (1 + 2)))).
Proof.
  destruct (no_sample_dim_tensor_mean q0 p1 None None) as (H1 & H2 & H3 & _).
  split; [reflexivity|].
  split; [exact (H1 (T0 (0 + (17 + 19))) eq_refl)|].
  split.
  - exact (H2 (T0 (0 + (1 + 2) + (0 + (3 + 4)) - (0 + (5 + 7))
                   - (0 + (11 + 13)))) eq_refl).
  - exact (H3 (T0 (0 + (1 + 2))) eq_refl).
Defined.

Lemma scalar_weights_tensor_mean_witness :
  log_joint p1 (Some 0%Z) None (x_names q0 p1) = Ten (T1 (0 + 17) (0 + 19))
  /\ log_like q0 p1 (Some 0%Z) None (Some (Num 5))
     = Return (Ten (T0 ((0 + 17 + (0 + 19)) / 2)))
  /\ kl q0 p1 (Some 0%Z) None (Some (Num 5))
     = Return (Ten (T0 ((5 + (0 + 3) - (0 + 5) - (0 + 11)
                         + (5 + (0 + 4) - (0 + 7) - (0 + 13))) / 2))).
Proof.
  destruct (scalar_weights_tensor_mean q0 p1 (Some 0%Z) None 5)
    as (H1 & H2 & _).
  split; [reflexivity|].
  split; [exact (H1 (T1 (0 + 17) (0 + 19)) eq_refl)|].
  exact (H2 (T1 (5 + (0 + 3) - (0 + 5) - (0 + 11))
                (5 + (0 + 4) - (0 + 7) - (0 + 13))) eq_refl).
Defined.

(** *** Weighted [log_like] *)

Lemma log_like_weighted_witness :
  weights_in_effect q0 (Some 0%Z) None None = Ten (T1 (0 + 1) (0 + 2))
  /\ log_like q0 p1 (Some 0%Z) None None =
     Return (Ten (T0 (exp (0 + 1) / (exp (0 + 1) + exp (0 + 2)) * (0 + 17)
                      + exp (0 + 2) / (exp (0 + 1) + exp (0 + 2)) * (0 + 19)))).
Proof.
  split; [reflexivity|].
  refine (proj2 (log_like_weighted q0 p1 0%Z None None (w := T1 (0 + 1) (0 + 2)) _)).
  reflexivity.
Defined.

End RealModelFacts.

(** * The sign of [kl] in binary64 *)

Module FloatModelFacts.

Import PrimFloat FloatModel.

(** In binary64 the swap does not turn [kl] into its opposite even on
    traces with the same conditioned and the same shared sampled names:
    [-2^53 + -1] rounds to [-2^53], so [kl(q, p)] is [0.] while [kl(p, q)]
    is [1.]. *)
Lemma kl_swap_rounding :
  conditioned pf = conditioned qf
  /\ z_names pf qf = z_names qf pf
  /\ kl qf pf None None None = Return (Ten 0%float)
  /\ kl pf qf None None None = Return (Ten 1%float)
  /\ omap py_neg (kl qf pf None None None) = Return (Ten (-0)%float)
  /\ kl pf qf None None None <> omap py_neg (kl qf pf None None None).
Proof.
  split; [reflexivity|]. split; [reflexivity|].
  split; [reflexivity|]. split; [reflexivity|]. split; [reflexivity|].
  intros H.
  apply (f_equal (fun m => match m with
                           | Return (Ten t) => PrimFloat.eqb t 1
                           | _ => false
                           end)) in H.
  vm_compute in H. discriminate H.
Qed.

(** So binary64 addition breaks the laws of exact arithmetic. *)
Lemma float_ops_not_exact : ~ TensorLaws float_ops.
Proof.
  intros L.
  pose proof (tadd_assoc (-9007199254740992)%float
                         9007199254740992%float 1%float) as H.
  apply (f_equal (fun t => PrimFloat.eqb t 1)) in H.
  vm_compute in H. discriminate H.
Qed.

End FloatModelFacts.

(** * Further properties: failures, defaults and closed forms

    The failures below are those of the module's own code, the attribute
    look-ups on a number or on [None]; the calls into torch and into the
    traces are taken to return. *)

Section FailureFacts.

Context {S T Tr : Type}.
Context {O : TensorOps S T}.
Context {TO : TraceOps S T Tr}.

Lemma failure_py_mean (v : value S T) : failure (py_mean v) = mean_failure v.
Proof. destruct v; reflexivity. Qed.


Lemma py_binop_tensor_l (fs : S -> S -> S) (ft : T -> T -> T) (t : T)
    (v : value S T) :
  py_binop fs ft (Ten t) v = Ten (ft t (to_tensor v)).
Proof. destruct v; reflexivity. Qed.

Lemma py_binop_tensor_r (fs : S -> S -> S) (ft : T -> T -> T)
    (v : value S T) (t : T) :
  py_binop fs ft v (Ten t) = Ten (ft (to_tensor v) t).
Proof. destruct v; reflexivity. Qed.

Lemma log_like_tensor_weights (q p : Tr) (d : Z) (bd : option Z) (w : T) :
  log_like q p (Some d) bd (Some (Ten w)) =
  Return (Ten (weighted_mean w (log_joint p (Some d) bd (x_names q p)))).
Proof.
  unfold log_like. cbv beta iota zeta delta [is_number].
  apply weighted_branch.
Qed.

Lemma kl_tensor_weights (q p : Tr) (d : Z) (bd : option Z) (w : T) :
  kl q p (Some d) bd (Some (Ten w)) =
  Return (Ten (weighted_mean w (kl_log_qp q p (Some d) bd (Some (Ten w))))).
Proof.
  unfold kl. cbv beta iota zeta delta [is_number].
  apply weighted_branch.
Qed.

Lemma log_like_default (q p : Tr) (sd bd : option Z) :
  log_like q p sd bd None
  = log_like q p sd bd (Some (log_joint q sd bd (conditioned q))).
Proof. destruct sd; reflexivity. Qed.

(** X1.  [ml] never asks [.mean()] of a plain number: when [q.log_joint]
    and the tensor's [mean()] return, [ml] returns, and it returns a plain
    number exactly when the log-weights in effect are one. *)
Theorem ml_never_raises (q : Tr) (sd bd : option Z)
    (lw : option (value S T)) :
  exists v : value S T,
    ml q sd bd lw = Return v
    /\ is_number (Some v)
       = is_number (Some (weights_in_effect q sd bd lw)).
Proof.
  rewrite ml_returns.
  destruct (weights_in_effect q sd bd lw) as [x|t]; simpl; eauto.
Qed.

(** X2.  When the calls into torch and the traces return, [log_like]
    raises exactly when no weighting takes place (no sample dimension, or
    log-weights in effect that are a plain number) and [log_px] is a plain
    number; the exception is then the [AttributeError] of [log_px.mean()].
    With a sample dimension and tensor log-weights its own code raises
    nothing, even when [log_px] is a plain number. *)
Theorem log_like_failure (q p : Tr) (sd bd : option Z)
    (lw : option (value S T)) :
  failure (log_like q p sd bd lw) =
  if no_weighting sd (weights_in_effect q sd bd lw)
  then mean_failure (log_joint p sd bd (x_names q p))
  else None.
Proof.
  rewrite <- failure_py_mean.
  destruct sd as [d|]; [|reflexivity].
  unfold weights_in_effect, no_weighting.
  destruct lw as [[x|w]|].
  - reflexivity.
  - rewrite log_like_tensor_weights. reflexivity.
  - rewrite log_like_default.
    destruct (log_joint q (Some d) bd (conditioned q)) as [x|w].
    + reflexivity.
    + rewrite log_like_tensor_weights. reflexivity.
Qed.


(** X4.  When the calls into torch and the traces return, [elbo] raises
    exactly when no weighting takes place and [log_px] or the integrand of
    [kl] is a plain number, and the exception is then the [AttributeError]
    of a [.mean()] asked of a number.  With a sample dimension and tensor
    log-weights its own code raises nothing. *)
Theorem elbo_failure (q p : Tr) (sd bd : option Z) (alpha beta : S) :
  let w := log_joint q sd bd (conditioned q) in
  failure (elbo q p sd bd alpha beta) =
  if no_weighting sd w
     && (is_number (Some (log_joint p sd bd (x_names q p)))
         || is_number (Some (kl_log_qp q p sd bd (Some w))))
  then Some (AttributeError Float "mean")
  else None.
Proof.
  intros w. unfold elbo, elbo_body. fold w.
  rewrite (ml_returns q sd bd (Some w)).
  unfold weights_in_effect.
  destruct sd as [d|].
  - destruct w as [x|t] eqn:Ew.
    + unfold log_like, kl, no_weighting.
      cbv beta iota zeta delta [is_number].
      destruct (log_joint p (Some d) bd (x_names q p)) as [a|a];
        [reflexivity|].
      destruct (kl_log_qp q p (Some d) bd (Some (Num x))) as [b|b];
        reflexivity.
    + rewrite log_like_tensor_weights, kl_tensor_weights. reflexivity.
  - unfold log_like, kl, no_weighting.
    destruct (log_joint p None bd (x_names q p)) as [a|a]; [reflexivity|].
    destruct (kl_log_qp q p None bd (Some w)) as [b|b]; [reflexivity|].
    destruct w; reflexivity.
Qed.

End FailureFacts.

Section ClosedForms.

Context {S T Tr : Type}.
Context {O : TensorOps S T}.
Context {TO : TraceOps S T Tr}.

(** X5.  Supplied tensor log-weights [w] enter [kl] twice when there is a
    sample dimension: as the first term of the integrand, in the place of
    [log_qy], and through [softmax(w, 0)] as the weights of the sum.  The
    value of [kl] is the mean of the sum along dimension 0 of
    [softmax(w, 0) * (w + log_qz - log_py - log_pz)], a plain number among
    the three log-densities being broadcast. *)
Theorem kl_weighted (q p : Tr) (d : Z) (bd : option Z) (w : T) :
  kl q p (Some d) bd (Some (Ten w)) =
  Return (Ten (tmean (tsum (tmul (tsoftmax w 0)
    (tsub (tsub (tadd w (to_tensor (log_joint q (Some d) bd (z_names q p))))
                (to_tensor (log_joint p (Some d) bd (conditioned q))))
          (to_tensor (log_joint p (Some d) bd (z_names q p))))) 0))).
Proof.
  rewrite kl_tensor_weights. unfold weighted_mean, kl_log_qp.
  unfold py_sub, py_add. rewrite !py_binop_tensor_l. reflexivity.
Qed.

(** X6.  With a sample dimension, when [q]'s joint log-density over its
    conditioned names is a tensor [w], [elbo] returns
    [L - beta * K + (beta + alpha) * mean(w)], where [L] and [K] are the
    sums along dimension 0 of [log_px] and of the integrand of [kl],
    weighted by [softmax(w, 0)], and averaged: the [ml] term is the one that
    is not weighted. *)
Theorem elbo_weighted (q p : Tr) (d : Z) (bd : option Z) (alpha beta : S)
    (w : T) :
  log_joint q (Some d) bd (conditioned q) = Ten w ->
  elbo q p (Some d) bd alpha beta =
  Return (Ten
    (tadd
       (tsub (weighted_mean w (log_joint p (Some d) bd (x_names q p)))
             (tmul (of_number beta)
                (weighted_mean w (kl_log_qp q p (Some d) bd (Some (Ten w))))))
       (tmul (of_number (sadd beta alpha)) (tmean w)))).
Proof.
  intros Hw. unfold elbo, elbo_body. rewrite Hw.
  rewrite log_like_tensor_weights, kl_tensor_weights.
  reflexivity.
Qed.

(** X7.  Leaving [log_weights] out of [log_like] and of [ml] is the same as
    passing [q]'s joint log-density over its conditioned names, and so it is
    for [kl] when there is no sample dimension.  Hence [elbo] is
    [log_like - beta * kl + (beta + alpha) * ml] with [log_like] and [ml]
    called without log-weights; only [kl] needs them passed. *)
Theorem default_weights (q p : Tr) (sd bd : option Z) (alpha beta : S) :
  let w := log_joint q sd bd (conditioned q) in
  log_like q p sd bd None = log_like q p sd bd (Some w)
  /\ ml q sd bd None = ml q sd bd (Some w)
  /\ kl q p None bd None
     = kl q p None bd (Some (log_joint q None bd (conditioned q)))
  /\ elbo q p sd bd alpha beta =
     olift2 py_add
       (olift2 py_sub
          (log_like q p sd bd None)
          (olift2 py_mul (Return (Num beta)) (kl q p sd bd (Some w))))
       (olift2 py_mul (Return (Num (sadd beta alpha))) (ml q sd bd None)).
Proof.
  intros w.
  assert (Hml : ml q sd bd None = ml q sd bd (Some w))
    by (rewrite !ml_returns; reflexivity).
  split; [apply log_like_default|].
  split; [exact Hml|].
  split; [reflexivity|].
  rewrite log_like_default, Hml. fold w.
  unfold elbo, elbo_body, olift2. fold w.
  destruct (log_like q p sd bd (Some w)) as [a|e1]; simpl; [|reflexivity].
  destruct (kl q p sd bd (Some w)) as [b|e2]; simpl; [|reflexivity].
  destruct (ml q sd bd (Some w)) as [c|e3]; reflexivity.
Qed.

(** X8.  When no weighting takes place (no sample dimension, or a joint
    log-density of [q] over its conditioned names that is a plain number),
    [elbo] does not depend on what softmax computes. *)
Theorem elbo_unweighted_ignores_softmax (q p : Tr) (sd bd : option Z)
    (alpha beta : S) (f : T -> Z -> T) :
  no_weighting sd (log_joint q sd bd (conditioned q)) = true ->
  elbo (O := with_softmax O f) q p sd bd alpha beta
  = elbo q p sd bd alpha beta.
Proof.
  unfold no_weighting, elbo, elbo_body, log_like, kl.
  destruct sd as [d|]; [|reflexivity].
  destruct (log_joint q (Some d) bd (conditioned q)) as [x|w];
    [reflexivity | discriminate].
Qed.

(** X9.  On traces that contain the names they list and list no name as
    both conditioned and sampled, the three sets of names the objectives
    work on are pairwise disjoint: [x] (conditioned in [p], not in [q]),
    [y] (conditioned in [q]) and [z] (sampled in [q], in [p]). *)
Theorem variable_sets_disjoint (q p : Tr) :
  (forall n, In n (conditioned q) -> contains q n = true) ->
  (forall n, In n (sampled q) -> contains q n = true) ->
  (forall n, In n (conditioned q) -> ~ In n (sampled q)) ->
  forall n,
    ~ (In n (x_names q p) /\ In n (conditioned q))
    /\ ~ (In n (x_names q p) /\ In n (z_names q p))
    /\ ~ (In n (conditioned q) /\ In n (z_names q p)).
Proof.
  intros Hc Hs Hd n. unfold x_names, z_names.
  rewrite !filter_In, negb_true_iff.
  repeat split; intros H.
  - destruct H as [[_ Hn] Hy]. apply Hc in Hy. congruence.
  - destruct H as [[_ Hn] [Hz _]]. apply Hs in Hz. congruence.
  - destruct H as [Hy [Hz _]]. exact (Hd n Hy Hz).
Qed.

End ClosedForms.

Module RealModelRuns.

Import RealModel.
Local Open Scope R_scope.

Lemma elbo_weighted_witness :
  log_joint q0 (Some 0%Z) None (conditioned q0) = Ten (T1 (0 + 1) (0 + 2))
  /\ elbo q0 p1 (Some 0%Z) None 1 2 =
     Return (Ten
       (tadd
          (tsub (weighted_mean (T1 (0 + 1) (0 + 2))
                   (log_joint p1 (Some 0%Z) None (x_names q0 p1)))
                (tmul (of_number 2)
                   (weighted_mean (T1 (0 + 1) (0 + 2))
                      (kl_log_qp q0 p1 (Some 0%Z) None
                         (Some (Ten (T1 (0 + 1) (0 + 2))))))))
          (tmul (of_number (sadd 2 1)) (tmean (T1 (0 + 1) (0 + 2)))))).
Proof.
  split; [reflexivity|].
  apply (elbo_weighted q0 p1 0%Z None 1 2 (w := T1 (0 + 1) (0 + 2))).
  reflexivity.
Defined.

Lemma elbo_unweighted_ignores_softmax_witness :
  no_weighting None (log_joint q0 None None (conditioned q0)) = true
  /\ elbo (O := with_softmax real_ops (fun t _ => t)) q0 p1 None None 1 2
     = elbo q0 p1 None None 1 2.
Proof.
  split; [reflexivity|].
  apply (elbo_unweighted_ignores_softmax q0 p1 None None 1 2 (fun t _ => t)).
  reflexivity.
Defined.

Lemma variable_sets_disjoint_witness :
  (forall n, In n (conditioned q0) -> contains q0 n = true)
  /\ (forall n, In n (sampled q0) -> contains q0 n = true)
  /\ (forall n, In n (conditioned q0) -> ~ In n (sampled q0))
  /\ forall n,
       ~ (In n (x_names q0 p1) /\ In n (conditioned q0))
       /\ ~ (In n (x_names q0 p1) /\ In n (z_names q0 p1))
       /\ ~ (In n (conditioned q0) /\ In n (z_names q0 p1)).
Proof.
  assert (Hc : forall n, In n (conditioned q0) -> contains q0 n = true).
  { intros n [<-|[]]. reflexivity. }
  assert (Hs : forall n, In n (sampled q0) -> contains q0 n = true).
  { intros n [<-|[]]. reflexivity. }
  assert (Hd : forall n, In n (conditioned q0) -> ~ In n (sampled q0)).
  { intros n [<-|[]] [H|[]]. discriminate H. }
  split; [exact Hc|]. split; [exact Hs|]. split; [exact Hd|].
  exact (variable_sets_disjoint q0 p1 Hc Hs Hd).
Defined.

End RealModelRuns.
